(** * wasm-result.h: WasmError, Result<T>, ErrorThrower, ScheduledErrorThrower

    A shallow embedding of [deps/v8/src/wasm/wasm-result.h].  Inline member
    functions of the header are translated line by line.  Member functions
    that the header only declares (their bodies live in the matching .cc
    file) are modelled from the written specification and are marked as
    such. *)

From Stdlib Require Import ZArith NArith List Bool Lia.
From Stdlib Require Import Ascii String DecimalString.
Import ListNotations.

Local Open Scope string_scope.

(** ** Outcomes of a call

    A [DCHECK] aborts the process in a debug build and is compiled away in
    a release build; a printf call whose arguments do not match its format
    has no defined behaviour. *)

Inductive outcome (A : Type) : Type :=
| Returns (a : A)
| DcheckFailed
| Undefined.

Arguments Returns {A} a.
Arguments DcheckFailed {A}.
Arguments Undefined {A}.

Definition bind {A B : Type} (m : outcome A) (k : A -> outcome B) : outcome B :=
  match m with
  | Returns a => k a
  | DcheckFailed => DcheckFailed
  | Undefined => Undefined
  end.

Notation "x <- m ;; k" := (bind m (fun x => k))
  (at level 61, m at next level, right associativity).

(** [DCHECK(cond)]: [debug] tells whether the build has DCHECKs enabled. *)
Definition DCHECK (debug : bool) (cond : bool) : outcome unit :=
  if debug && negb cond then DcheckFailed else Returns tt.

(** ** Strings

    [std::string] is a [string]; it may hold any character, the NUL
    character included.  A [const char*] is read up to its first NUL. *)

Definition NUL : ascii := "000"%char.

Definition string_empty (s : string) : bool :=
  match s with
  | EmptyString => true
  | String _ _ => false
  end.

(** [std::string::c_str()] as seen by a reader of the [const char*]. *)
Fixpoint c_str (s : string) : string :=
  match s with
  | EmptyString => EmptyString
  | String c rest => if Ascii.eqb c NUL then EmptyString else String c (c_str rest)
  end.

Fixpoint nul_free (s : string) : bool :=
  match s with
  | EmptyString => true
  | String c rest => negb (Ascii.eqb c NUL) && nul_free rest
  end.

(** ** printf-style formatting *)

(** The variadic arguments of a printf-style call. *)
Inductive printf_arg : Type :=
| ArgCStr (s : string)      (* const char* *)
| ArgUInt (n : N)           (* unsigned *)
| ArgInt (z : Z).           (* int *)

Definition decimal (n : N) : string := NilZero.string_of_uint (N.to_uint n).

Definition decimal_int (z : Z) : string := NilZero.string_of_int (Z.to_int z).

(** Modelled from the spec: the string builder behind [FormatError] and
    [ErrorThrower::Format] is not part of the header; the spec treats it
    as printf-style interpolation.  The directives are the ones the header
    itself uses ([%s], [%u]), plus [%d] and [%%]; the format and every
    [%s] argument are read up to their first NUL. *)
Fixpoint vprintf (format : string) (args : list printf_arg) : option string :=
  match format with
  | EmptyString => Some EmptyString
  | String c rest =>
      if Ascii.eqb c NUL then Some EmptyString
      else if Ascii.eqb c "%"%char then
        match rest with
        | String "s"%char rest' =>
            match args with
            | ArgCStr s :: args' => option_map (append (c_str s)) (vprintf rest' args')
            | _ => None
            end
        | String "u"%char rest' =>
            match args with
            | ArgUInt n :: args' => option_map (append (decimal n)) (vprintf rest' args')
            | _ => None
            end
        | String "d"%char rest' =>
            match args with
            | ArgInt z :: args' => option_map (append (decimal_int z)) (vprintf rest' args')
            | _ => None
            end
        | String "%"%char rest' => option_map (String "%"%char) (vprintf rest' args)
        | _ => None
        end
      else option_map (String c) (vprintf rest args)
  end.

(** ** WasmError *)

Definition uint32_max : N := 4294967295.

Definition to_uint32 (n : N) : N := N.modulo n (uint32_max + 1).

Record WasmError : Type := mkWasmError {
  offset_ : N;          (* uint32_t offset_ = 0; *)
  message_ : string     (* std::string message_; *)
}.

Module WasmError.

(** [WasmError() = default]. *)
Definition default : WasmError := {| offset_ := 0; message_ := "" |}.

(** [WasmError(uint32_t offset, std::string message)]. *)
Definition make (debug : bool) (offset : N) (message : string) : outcome WasmError :=
  let this := {| offset_ := to_uint32 offset; message_ := message |} in
  _ <- DCHECK debug (negb (string_empty (message_ this))) ;;
  Returns this.

(** Modelled from the spec: [FormatError] is declared in the header and
    defined elsewhere; it builds the message by formatted interpolation. *)
Definition FormatError (format : string) (args : list printf_arg) : outcome string :=
  match vprintf format args with
  | Some s => Returns s
  | None => Undefined
  end.

(** [WasmError(uint32_t offset, const char* format, ...)]. *)
Definition make_fmt (debug : bool) (offset : N) (format : string)
    (args : list printf_arg) : outcome WasmError :=
  msg <- FormatError format args ;;
  let this := {| offset_ := to_uint32 offset; message_ := msg |} in
  _ <- DCHECK debug (negb (string_empty (message_ this))) ;;
  Returns this.

Definition empty (e : WasmError) : bool := string_empty (message_ e).
Definition has_error (e : WasmError) : bool := negb (string_empty (message_ e)).
(** [operator bool()]. *)
Definition to_bool (e : WasmError) : bool := has_error e.
Definition offset (e : WasmError) : N := offset_ e.
Definition message (e : WasmError) : string := message_ e.

End WasmError.

(** ** Result<T> *)

Module Result.
Section WithPayload.

Context {T : Type}.
(** [T{}], the value-initialised payload. *)
Variable T_default : T.

Record t : Type := mk {
  value_ : T;            (* T value_ = T{}; *)
  error_ : WasmError     (* WasmError error_; *)
}.

(** [Result() = default]. *)
Definition default : t := {| value_ := T_default; error_ := WasmError.default |}.

(** [template <typename U> explicit Result(U&& value)]: [conv] is the
    construction of a [T] from the forwarded [U]. *)
Definition of_value {U : Type} (conv : U -> T) (value : U) : t :=
  {| value_ := conv value; error_ := WasmError.default |}.

(** [explicit Result(WasmError error)]. *)
Definition of_error (error : WasmError) : t :=
  {| value_ := T_default; error_ := error |}.

Definition ok (r : t) : bool := WasmError.empty (error_ r).
Definition failed (r : t) : bool := WasmError.has_error (error_ r).
Definition error (r : t) : WasmError := error_ r.

(** [value()], both overloads: [DCHECK(ok()); return value_;]. *)
Definition value (debug : bool) (r : t) : outcome T :=
  _ <- DCHECK debug (ok r) ;;
  Returns (value_ r).

End WithPayload.

Arguments t : clear implicits.

(** [operator Result<U>() const&&]:
    [return ok() ? Result<U>{std::move(value_)} : Result<U>{error_};]
    [conv] is the construction of a [U] from the moved [T]. *)
Definition convert {T U : Type} (U_default : U) (conv : T -> U) (r : t T) : t U :=
  if ok r then of_value conv (value_ r) else of_error U_default (error_ r).

End Result.

(** [using VoidResult = Result<std::nullptr_t>]. *)
Definition VoidResult : Type := Result.t unit.

(** ** ErrorThrower::ErrorType *)

Inductive ErrorType : Type :=
| kNone
  (* General errors. *)
| kTypeError
| kRangeError
  (* Wasm errors. *)
| kCompileError
| kLinkError
| kRuntimeError.

(** Marker: [kFirstWasmError = kCompileError]. *)
Definition kFirstWasmError : ErrorType := kCompileError.

(** The enumerator values the compiler assigns. *)
Definition ErrorType_value (ty : ErrorType) : Z :=
  match ty with
  | kNone => 0
  | kTypeError => 1
  | kRangeError => 2
  | kCompileError => 3
  | kLinkError => 4
  | kRuntimeError => 5
  end.

(** ** The host runtime *)

(** Modelled from the spec: the host's exception object is not part of the
    header; its "kind matches category". *)
Record Exception : Type := mkException {
  exception_kind : ErrorType;
  exception_text : string
}.

(** Modelled from the spec: the isolate is an external collaborator, "an
    opaque sink with operations create exception object and schedule
    exception".  Both are kept as logs, most recent first, so that the
    number of calls can be counted. *)
Record Isolate : Type := mkIsolate {
  created : list Exception;
  scheduled : list Exception
}.

(** Modelled from the spec: the sink operation "create exception object". *)
Definition create_exception (ex : Exception) (isolate : Isolate) : Isolate :=
  {| created := ex :: created isolate; scheduled := scheduled isolate |}.

(** Modelled from the spec: the sink operation "schedule exception". *)
Definition schedule_exception (ex : Exception) (isolate : Isolate) : Isolate :=
  {| created := created isolate; scheduled := ex :: scheduled isolate |}.

(** ** ErrorThrower

    The [Isolate*] member is modelled by passing the isolate explicitly to
    the operations that use it. *)

Record ErrorThrower : Type := mkErrorThrower {
  context_ : string;            (* const char* context_; *)
  error_type_ : ErrorType;      (* ErrorType error_type_ = kNone; *)
  error_msg_ : string           (* std::string error_msg_; *)
}.

(** The shape of a category setter, [void CompileError(const char* fmt, ...)]
    and its four siblings, as a function on the thrower. *)
Definition setter : Type :=
  string -> list printf_arg -> ErrorThrower -> outcome ErrorThrower.

Module ErrorThrower.

(** [ErrorThrower(Isolate* isolate, const char* context)]. *)
Definition make (context : string) : ErrorThrower :=
  {| context_ := context; error_type_ := kNone; error_msg_ := "" |}.

(** Modelled from the spec: [Format] is declared in the header and
    defined elsewhere.  A category setter "builds the message, and sets
    category to the corresponding value", and "unconditionally overwrites
    any previously pending error".  The spec does not say how the context
    label enters the message; here the message is the formatted text
    alone.  [sets_category] below asks of a setter only that [error_msg()]
    contains the formatted text, wherever the label goes. *)
Definition Format (ty : ErrorType) (format : string) (args : list printf_arg)
    (this : ErrorThrower) : outcome ErrorThrower :=
  match vprintf format args with
  | Some msg =>
      Returns {| context_ := context_ this; error_type_ := ty; error_msg_ := msg |}
  | None => Undefined
  end.

(** Modelled from the spec: [TypeError] is declared in the header and
    defined elsewhere; it formats with its own category. *)
Definition TypeError := Format kTypeError.
(** Modelled from the spec: [RangeError], as above. *)
Definition RangeError := Format kRangeError.
(** Modelled from the spec: [CompileError], as above. *)
Definition CompileError := Format kCompileError.
(** Modelled from the spec: [LinkError], as above. *)
Definition LinkError := Format kLinkError.
(** Modelled from the spec: [RuntimeError], as above. *)
Definition RuntimeError := Format kRuntimeError.

(** [void CompileFailed(const WasmError& error)]. *)
Definition CompileFailed (debug : bool) (error : WasmError) (this : ErrorThrower)
    : outcome ErrorThrower :=
  _ <- DCHECK debug (WasmError.has_error error) ;;
  CompileError "%s @+%u"
    [ArgCStr (c_str (WasmError.message error)); ArgUInt (WasmError.offset error)]
    this.

(** [void CompileFailed(const WasmError& error)] again, with the setter it
    calls, which the header only declares, as a parameter. *)
Definition CompileFailed_with (CompileError : setter) (debug : bool)
    (error : WasmError) (this : ErrorThrower) : outcome ErrorThrower :=
  _ <- DCHECK debug (WasmError.has_error error) ;;
  CompileError "%s @+%u"
    [ArgCStr (c_str (WasmError.message error)); ArgUInt (WasmError.offset error)]
    this.

(** [bool error() const { return error_type_ != kNone; }] *)
Definition error (this : ErrorThrower) : bool :=
  negb (ErrorType_value (error_type_ this) =? ErrorType_value kNone)%Z.

(** [bool wasm_error() { return error_type_ >= kFirstWasmError; }] *)
Definition wasm_error (this : ErrorThrower) : bool :=
  (ErrorType_value kFirstWasmError <=? ErrorType_value (error_type_ this))%Z.

(** [const char* error_msg() { return error_msg_.c_str(); }] *)
Definition error_msg (this : ErrorThrower) : string := c_str (error_msg_ this).

(** Modelled from the spec: [Reset] is declared in the header and defined
    elsewhere; it "clears category to None and the message to empty; does
    not reify". *)
Definition Reset (this : ErrorThrower) : ErrorThrower :=
  {| context_ := context_ this; error_type_ := kNone; error_msg_ := "" |}.

(** Modelled from the spec: [Reify] is declared in the header and defined
    elsewhere; "precondition error(); constructs and returns a host
    exception object whose kind matches category", and it "does not
    change state". *)
Definition Reify (debug : bool) (isolate : Isolate) (this : ErrorThrower)
    : outcome (Exception * Isolate) :=
  _ <- DCHECK debug (error this) ;;
  let ex := {| exception_kind := error_type_ this;
               exception_text := error_msg_ this |} in
  Returns (ex, create_exception ex isolate).

(** Modelled from the spec: the destructor is declared in the header and
    defined elsewhere; "an unreified pending error is simply dropped". *)
Definition destroy (isolate : Isolate) (this : ErrorThrower) : Isolate := isolate.

End ErrorThrower.

(** ** ScheduledErrorThrower *)

Module ScheduledErrorThrower.

(** [ScheduledErrorThrower(i::Isolate* isolate, const char* context)
      : ErrorThrower(isolate, context) {}] *)
Definition make (context : string) : ErrorThrower := ErrorThrower.make context.

(** Modelled from the spec: the destructor is declared in the header and
    defined elsewhere; "on destruction, if error() is still true [...]
    the pending error is converted into the host runtime's deferred
    (scheduled) exception mechanism".  The spec's further condition, "has
    not been explicitly reified", has no counterpart among the members of
    the header, and what the destructor does with an exception that is
    already pending or scheduled in the host is not described: neither is
    modelled, and the definition is used for a thrower without error
    only. *)
Definition destroy (debug : bool) (isolate : Isolate) (this : ErrorThrower)
    : outcome Isolate :=
  if ErrorThrower.error this then
    r <- ErrorThrower.Reify debug isolate this ;;
    Returns (schedule_exception (fst r) (snd r))
  else Returns isolate.

End ScheduledErrorThrower.

(** ** Sequences of calls

    The calls that one thrower receives, one after the other: the five
    category setters, [CompileFailed] and [Reset]. *)

Inductive request : Type :=
| DoTypeError (format : string) (args : list printf_arg)
| DoRangeError (format : string) (args : list printf_arg)
| DoCompileError (format : string) (args : list printf_arg)
| DoLinkError (format : string) (args : list printf_arg)
| DoRuntimeError (format : string) (args : list printf_arg)
| DoCompileFailed (error : WasmError)
| DoReset.

Definition perform (debug : bool) (req : request) (this : ErrorThrower)
    : outcome ErrorThrower :=
  match req with
  | DoTypeError format args => ErrorThrower.TypeError format args this
  | DoRangeError format args => ErrorThrower.RangeError format args this
  | DoCompileError format args => ErrorThrower.CompileError format args this
  | DoLinkError format args => ErrorThrower.LinkError format args this
  | DoRuntimeError format args => ErrorThrower.RuntimeError format args this
  | DoCompileFailed error => ErrorThrower.CompileFailed debug error this
  | DoReset => Returns (ErrorThrower.Reset this)
  end.

Fixpoint run (debug : bool) (body : list request) (this : ErrorThrower)
    : outcome ErrorThrower :=
  match body with
  | [] => Returns this
  | req :: body' => this' <- perform debug req this ;; run debug body' this'
  end.

(** The five category setters, each with the category it stands for. *)
Definition category_setters : list (ErrorType * (string -> list printf_arg -> request)) :=
  [ (kTypeError, DoTypeError); (kRangeError, DoRangeError);
    (kCompileError, DoCompileError); (kLinkError, DoLinkError);
    (kRuntimeError, DoRuntimeError) ].

(** [sub] occurs in [s]. *)
Definition contains (s sub : string) : Prop :=
  exists before after, s = before ++ sub ++ after.

(** Modelled from the spec: what the spec says of a category setter that
    the header only declares.  Whatever error was pending, a call with a
    format that matches its arguments returns, the category is then the
    setter's own, and [error_msg()] contains the formatted text. *)
Definition sets_category (ty : ErrorType) (set : setter) : Prop :=
  forall format args text this,
    vprintf format args = Some text ->
    exists this',
      set format args this = Returns this' /\
      error_type_ this' = ty /\
      contains (ErrorThrower.error_msg this') text.

(** * Properties *)

(** ** C strings *)

Lemma c_str_nul_free (s : string) : nul_free (c_str s) = true.
Proof.
  induction s as [|c rest IH]; simpl; [reflexivity|].
  destruct (Ascii.eqb c NUL) eqn:E; simpl; [reflexivity|].
  now rewrite E, IH.
Qed.

Lemma c_str_fixed (s : string) : nul_free s = true -> c_str s = s.
Proof.
  induction s as [|c rest IH]; simpl; [reflexivity|].
  destruct (Ascii.eqb c NUL); simpl; [discriminate|].
  intros H. now rewrite IH.
Qed.

Lemma c_str_idem (s : string) : c_str (c_str s) = c_str s.
Proof. apply c_str_fixed, c_str_nul_free. Qed.

Lemma nul_free_app (a b : string) :
  nul_free (a ++ b) = nul_free a && nul_free b.
Proof.
  induction a as [|c rest IH]; simpl; [reflexivity|].
  now rewrite IH, andb_assoc.
Qed.

Lemma nul_free_digits (d : Decimal.uint) :
  nul_free (NilEmpty.string_of_uint d) = true.
Proof. induction d; simpl; auto. Qed.

Lemma decimal_nul_free (n : N) : nul_free (decimal n) = true.
Proof.
  unfold decimal, NilZero.string_of_uint.
  destruct (N.to_uint n); try reflexivity; apply nul_free_digits.
Qed.

Example decimal_10 : decimal 10 = "10".
Proof. reflexivity. Qed.

Example decimal_0 : decimal 0 = "0".
Proof. reflexivity. Qed.

Example decimal_uint32_max : decimal uint32_max = "4294967295".
Proof. reflexivity. Qed.

Example c_str_stops_at_NUL : c_str (String "a" (String NUL "b")) = "a".
Proof. reflexivity. Qed.

Lemma append_empty_r (s : string) : s ++ "" = s.
Proof. induction s as [|c rest IH]; simpl; [reflexivity | now rewrite IH]. Qed.

Lemma c_str_app (a b : string) :
  nul_free a = true -> c_str (a ++ b) = a ++ c_str b.
Proof.
  induction a as [|c rest IH]; simpl; [reflexivity|].
  destruct (Ascii.eqb c NUL); simpl; [discriminate|].
  intros H. now rewrite IH.
Qed.

(** ** Formatting *)

(** The format that [CompileFailed] passes on. *)
Lemma vprintf_message_at_offset (m : string) (n : N) :
  vprintf "%s @+%u" [ArgCStr m; ArgUInt n] = Some (c_str m ++ " @+" ++ decimal n).
Proof. cbn. now rewrite append_empty_r. Qed.

(** ** Result<T> *)

Lemma DCHECK_holds (debug : bool) : DCHECK debug true = Returns tt.
Proof. unfold DCHECK. now rewrite andb_false_r. Qed.

Lemma has_error_not_empty (e : WasmError) :
  WasmError.has_error e = negb (WasmError.empty e).
Proof. reflexivity. Qed.

Lemma has_error_message (e : WasmError) :
  WasmError.has_error e = true <-> WasmError.message e <> "".
Proof.
  unfold WasmError.has_error, WasmError.message.
  destruct (message_ e); simpl; split; congruence.
Qed.

(** [ok()] and [failed()] are complementary. *)
Lemma failed_not_ok {T : Type} (r : Result.t T) :
  Result.failed r = negb (Result.ok r).
Proof. reflexivity. Qed.

(** A container built from a value through a conversion holds the
    converted value. *)
Lemma Result_of_value_conv {T U : Type} (debug : bool) (conv : U -> T) (u : U) :
  Result.ok (Result.of_value conv u) = true /\
  Result.value debug (Result.of_value conv u) = Returns (conv u).
Proof.
  split; [reflexivity|].
  unfold Result.value. cbn. now rewrite DCHECK_holds.
Qed.

(** C2: for every value [v], the container constructed from [v] is in the
    ok state, and [value()] returns [v], in a debug and in a release
    build. *)
Theorem Result_of_value_ok_value :
  forall (T : Type) (debug : bool) (v : T),
    Result.ok (Result.of_value id v) = true /\
    Result.value debug (Result.of_value id v) = Returns v.
Proof. intros T debug v. apply (Result_of_value_conv debug id v). Qed.

(** The concrete scenario of the spec: [Result<int>(5)]. *)
Example Result_int_5 :
  Result.ok (Result.of_value id 5%Z) = true /\
  Result.value true (Result.of_value id 5%Z) = Returns 5%Z.
Proof. split; reflexivity. Qed.

(** C3: for every error [e] with a non-empty message, the container
    constructed from [e] is in the failed state, and its stored error has
    the offset and the message of [e]. *)
Theorem Result_of_error_failed :
  forall (T : Type) (T_default : T) (e : WasmError),
    WasmError.message e <> "" ->
    Result.failed (Result.of_error T_default e) = true /\
    WasmError.offset (Result.error (Result.of_error T_default e)) = WasmError.offset e /\
    WasmError.message (Result.error (Result.of_error T_default e)) = WasmError.message e.
Proof.
  intros T T_default e He.
  split; [|split; reflexivity].
  unfold Result.failed. cbn. now apply has_error_message.
Qed.

Lemma Result_of_error_failed_witness :
  WasmError.message (mkWasmError 10 "bad byte") <> "" /\
  Result.failed (Result.of_error 0%Z (mkWasmError 10 "bad byte")) = true /\
  WasmError.offset (Result.error (Result.of_error 0%Z (mkWasmError 10 "bad byte"))) = 10%N /\
  WasmError.message (Result.error (Result.of_error 0%Z (mkWasmError 10 "bad byte")))
    = "bad byte".
Proof.
  split; [discriminate|].
  apply (Result_of_error_failed Z 0%Z (mkWasmError 10 "bad byte")). discriminate.
Defined.

(** The error of the scenario is the one its constructor returns. *)
Example WasmError_10_bad_byte :
  WasmError.make true 10 "bad byte" = Returns (mkWasmError 10 "bad byte").
Proof. reflexivity. Qed.

(** C4: converting a container to another payload type keeps its state: an
    ok container becomes an ok container that holds the converted value, a
    failed container becomes a failed container that holds the same error,
    offset and message unchanged. *)
Theorem Result_convert_preserves :
  forall (T U : Type) (U_default : U) (conv : T -> U) (r : Result.t T),
    (Result.ok r = true ->
       Result.ok (Result.convert U_default conv r) = true /\
       forall debug,
         Result.value debug (Result.convert U_default conv r)
         = Returns (conv (Result.value_ r))) /\
    (Result.failed r = true ->
       Result.failed (Result.convert U_default conv r) = true /\
       Result.error (Result.convert U_default conv r) = Result.error r).
Proof.
  intros T U U_default conv r. unfold Result.convert. split; intros H.
  - rewrite H. split; [reflexivity|]. intros debug.
    apply (Result_of_value_conv debug conv (Result.value_ r)).
  - assert (Hok : Result.ok r = false)
      by (rewrite failed_not_ok in H; now apply negb_true_iff in H).
    rewrite Hok. split; [exact H | reflexivity].
Qed.

Lemma Result_convert_preserves_witness :
  (Result.ok (Result.of_value id 5%nat) = true /\
   Result.value true (Result.convert 0%Z Z.of_nat (Result.of_value id 5%nat))
   = Returns 5%Z) /\
  (Result.failed (Result.of_error 0%nat (mkWasmError 10 "bad byte")) = true /\
   Result.error (Result.convert 0%Z Z.of_nat
                   (Result.of_error 0%nat (mkWasmError 10 "bad byte")))
   = mkWasmError 10 "bad byte").
Proof.
  split.
  - split; [reflexivity|].
    apply (proj1 (Result_convert_preserves nat Z 0%Z Z.of_nat
                    (Result.of_value id 5%nat))); reflexivity.
  - split; [reflexivity|].
    apply (proj2 (Result_convert_preserves nat Z 0%Z Z.of_nat
                    (Result.of_error 0%nat (mkWasmError 10 "bad byte")))); reflexivity.
Defined.

(** C8: on a container that is ok, [value()] passes its DCHECK and returns
    the held value; on a failed container the DCHECK fires in a debug
    build, and the call reports no failure of its own: where DCHECKs are
    compiled away it returns the stored payload. *)
Theorem Result_value_contract :
  forall (T : Type) (r : Result.t T),
    (Result.ok r = true ->
       forall debug, Result.value debug r = Returns (Result.value_ r)) /\
    (Result.failed r = true ->
       Result.value true r = DcheckFailed /\
       Result.value false r = Returns (Result.value_ r)).
Proof.
  intros T r. unfold Result.value. split; intros H.
  - intros debug. rewrite H. now rewrite DCHECK_holds.
  - rewrite failed_not_ok in H. apply negb_true_iff in H. rewrite H.
    split; reflexivity.
Qed.

Lemma Result_value_contract_witness :
  (Result.ok (Result.of_value id 5%Z) = true /\
   Result.value true (Result.of_value id 5%Z) = Returns 5%Z) /\
  (Result.failed (Result.of_error 0%Z (mkWasmError 10 "bad byte")) = true /\
   Result.value true (Result.of_error 0%Z (mkWasmError 10 "bad byte")) = DcheckFailed /\
   Result.value false (Result.of_error 0%Z (mkWasmError 10 "bad byte")) = Returns 0%Z).
Proof.
  split.
  - split; [reflexivity|].
    apply (proj1 (Result_value_contract Z (Result.of_value id 5%Z))); reflexivity.
  - split; [reflexivity|].
    apply (proj2 (Result_value_contract Z
                    (Result.of_error 0%Z (mkWasmError 10 "bad byte")))); reflexivity.
Defined.

(** ** ErrorThrower: predicates *)

Lemma error_iff (this : ErrorThrower) :
  ErrorThrower.error this = true <-> error_type_ this <> kNone.
Proof.
  unfold ErrorThrower.error. destruct (error_type_ this); simpl; split;
    solve [congruence | discriminate].
Qed.

Lemma wasm_error_iff (this : ErrorThrower) :
  ErrorThrower.wasm_error this = true <->
  In (error_type_ this) [kCompileError; kLinkError; kRuntimeError].
Proof.
  unfold ErrorThrower.wasm_error. destruct (error_type_ this); simpl; split;
    solve [ discriminate | auto
          | intros H; repeat (destruct H as [H|H]; try discriminate H); contradiction ].
Qed.

(** C10: in every state of a thrower, reachable or not, [wasm_error()]
    implies [error()]: a category at or above [kFirstWasmError] is not
    [kNone]. *)
Theorem wasm_error_implies_error :
  forall this : ErrorThrower,
    ErrorThrower.wasm_error this = true -> ErrorThrower.error this = true.
Proof.
  intros this H. unfold ErrorThrower.wasm_error in H. unfold ErrorThrower.error.
  apply Z.leb_le in H. apply negb_true_iff, Z.eqb_neq.
  unfold kFirstWasmError in H. simpl in *. lia.
Qed.

Lemma wasm_error_implies_error_witness :
  ErrorThrower.wasm_error (mkErrorThrower "WebAssembly.compile()" kLinkError "x") = true /\
  ErrorThrower.error (mkErrorThrower "WebAssembly.compile()" kLinkError "x") = true.
Proof.
  split; [reflexivity|].
  apply (wasm_error_implies_error
           (mkErrorThrower "WebAssembly.compile()" kLinkError "x")).
  reflexivity.
Defined.

(** ** ErrorThrower: setters *)

Lemma Format_returns (ty : ErrorType) (format : string) (args : list printf_arg)
    (msg : string) (this : ErrorThrower) :
  vprintf format args = Some msg ->
  ErrorThrower.Format ty format args this
  = Returns (mkErrorThrower (context_ this) ty msg).
Proof. intros H. unfold ErrorThrower.Format. now rewrite H. Qed.

Lemma CompileFailed_returns (debug : bool) (e : WasmError) (this : ErrorThrower) :
  WasmError.has_error e = true ->
  ErrorThrower.CompileFailed debug e this
  = Returns (mkErrorThrower (context_ this) kCompileError
               (c_str (WasmError.message e) ++ " @+" ++ decimal (WasmError.offset e))).
Proof.
  intros H. unfold ErrorThrower.CompileFailed. rewrite H, DCHECK_holds. simpl bind.
  apply Format_returns. now rewrite vprintf_message_at_offset, c_str_idem.
Qed.

(** C6: [wasm_error()] is true exactly for the categories from
    [kCompileError] on; after the [CompileError] setter both [error()] and
    [wasm_error()] are true, after the [TypeError] setter [error()] is true
    and [wasm_error()] is false. *)
Theorem wasm_error_tier :
  (forall this : ErrorThrower,
     ErrorThrower.wasm_error this = true <->
     In (error_type_ this) [kCompileError; kLinkError; kRuntimeError]) /\
  (forall format args this,
     vprintf format args <> None ->
     exists this',
       ErrorThrower.CompileError format args this = Returns this' /\
       ErrorThrower.error this' = true /\ ErrorThrower.wasm_error this' = true) /\
  (forall format args this,
     vprintf format args <> None ->
     exists this',
       ErrorThrower.TypeError format args this = Returns this' /\
       ErrorThrower.error this' = true /\ ErrorThrower.wasm_error this' = false).
Proof.
  split; [exact wasm_error_iff|].
  split; intros format args this H;
    destruct (vprintf format args) as [msg|] eqn:E; try congruence;
    eexists; (split; [apply (Format_returns _ _ _ msg); exact E|]);
    split; reflexivity.
Qed.

Lemma wasm_error_tier_witness :
  (vprintf "x" [] <> None /\
   exists this',
     ErrorThrower.CompileError "x" [] (ErrorThrower.make "WebAssembly.compile()")
     = Returns this' /\
     ErrorThrower.error this' = true /\ ErrorThrower.wasm_error this' = true) /\
  (vprintf "x" [] <> None /\
   exists this',
     ErrorThrower.TypeError "x" [] (ErrorThrower.make "WebAssembly.compile()")
     = Returns this' /\
     ErrorThrower.error this' = true /\ ErrorThrower.wasm_error this' = false).
Proof.
  split; (split; [discriminate|]).
  - apply (proj1 (proj2 wasm_error_tier) "x" []
             (ErrorThrower.make "WebAssembly.compile()")). discriminate.
  - apply (proj2 (proj2 wasm_error_tier) "x" []
             (ErrorThrower.make "WebAssembly.compile()")). discriminate.
Defined.

(** ** ErrorThrower: Reset *)

(** C7: after [Reset()], whatever the state before, [error()] and
    [wasm_error()] are false and [error_msg()] is the empty string.
    [Reset()] reifies nothing: it has no access to the isolate, and the
    error it discarded is not reified at scope exit either, the isolate is
    left as it was. *)
Theorem Reset_clears :
  forall (debug : bool) (isolate : Isolate) (this : ErrorThrower),
    ErrorThrower.error (ErrorThrower.Reset this) = false /\
    ErrorThrower.wasm_error (ErrorThrower.Reset this) = false /\
    ErrorThrower.error_msg (ErrorThrower.Reset this) = "" /\
    ScheduledErrorThrower.destroy debug isolate (ErrorThrower.Reset this)
    = Returns isolate.
Proof. intros debug isolate this. repeat split. Qed.

(** ** ErrorThrower: CompileFailed *)

(** What [CompileFailed] leaves in the thrower, for errors whose message
    is a plain C string. *)
Example CompileFailed_bad_byte :
  ErrorThrower.CompileFailed true (mkWasmError 10 "bad byte")
    (ErrorThrower.make "WebAssembly.compile()")
  = Returns (mkErrorThrower "WebAssembly.compile()" kCompileError "bad byte @+10").
Proof. reflexivity. Qed.

(** C5, as stated, fails: a message with an embedded NUL is passed on
    through [c_str()] and [%s], so only its part before the NUL reaches the
    thrower. *)
Lemma CompileFailed_truncates_at_NUL :
  let e := mkWasmError 10 (String "a" (String NUL "b")) in
  WasmError.make true 10 (String "a" (String NUL "b")) = Returns e /\
  exists this',
    ErrorThrower.CompileFailed true e (ErrorThrower.make "WebAssembly.compile()")
    = Returns this' /\
    error_msg_ this' = "a @+10" /\
    error_msg_ this' <> WasmError.message e ++ " @+" ++ decimal (WasmError.offset e).
Proof.
  cbv zeta. split; [reflexivity|].
  eexists. split; [reflexivity|]. split; [reflexivity|].
  cbn. discriminate.
Qed.

(** ** Formatted texts *)

Lemma contains_refl (s : string) : contains s s.
Proof. exists "", "". simpl. now rewrite append_empty_r. Qed.

Lemma nul_free_uint (d : Decimal.uint) :
  nul_free (NilZero.string_of_uint d) = true.
Proof.
  unfold NilZero.string_of_uint.
  destruct d; try reflexivity; apply nul_free_digits.
Qed.

Lemma decimal_int_nul_free (z : Z) : nul_free (decimal_int z) = true.
Proof.
  unfold decimal_int, NilZero.string_of_int.
  destruct (Z.to_int z) as [d|d]; [apply nul_free_uint|].
  simpl. apply nul_free_uint.
Qed.

Lemma nul_free_option_map (f : string -> string) (o : option string) (t : string) :
  (forall s, nul_free s = true -> nul_free (f s) = true) ->
  (forall s, o = Some s -> nul_free s = true) ->
  option_map f o = Some t -> nul_free t = true.
Proof.
  intros Hf Ho H. destruct o as [s|]; simpl in H; [|discriminate].
  inversion H; subst t. apply Hf, Ho. reflexivity.
Qed.

Lemma nul_free_prepend (a s : string) :
  nul_free a = true -> nul_free s = true -> nul_free (a ++ s) = true.
Proof. intros Ha Hs. now rewrite nul_free_app, Ha, Hs. Qed.

(** A formatted text holds no NUL: the format is read up to its first NUL,
    and so is every [%s] argument. *)
Lemma vprintf_nul_free_step (format : string) :
  (forall args t, vprintf format args = Some t -> nul_free t = true) /\
  (forall c args t, vprintf (String c format) args = Some t -> nul_free t = true).
Proof.
  induction format as [|d format [IHtail IHcons]].
  - split; intros; simpl in *.
    + inversion H; reflexivity.
    + destruct (Ascii.eqb c NUL) eqn:Ec; [inversion H; reflexivity|].
      destruct (Ascii.eqb c "%"); [discriminate|].
      inversion H; subst t. simpl. now rewrite Ec.
  - split; [exact (IHcons d)|].
    intros c args t H. cbn [vprintf] in H.
    destruct (Ascii.eqb c NUL) eqn:Ec; [inversion H; reflexivity|].
    destruct (Ascii.eqb c "%").
    + destruct d as [[] [] [] [] [] [] [] []]; try discriminate H;
        first
          [ exact (nul_free_option_map (String "%"%char) _ _ (fun s Hs => Hs) (IHtail args) H)
          | destruct args as [|[s|n|z] args']; try discriminate H;
            refine (nul_free_option_map _ _ _ _ (IHtail args') H);
            intros s0 Hs; apply nul_free_prepend;
            auto using c_str_nul_free, decimal_nul_free, decimal_int_nul_free ].
    + refine (nul_free_option_map _ _ _ _ (IHcons d args) H).
      intros s Hs. simpl. now rewrite Ec, Hs.
Qed.

Lemma vprintf_nul_free (format : string) (args : list printf_arg) (t : string) :
  vprintf format args = Some t -> nul_free t = true.
Proof. apply (proj1 (vprintf_nul_free_step format)). Qed.

(** The setters of this file do what [sets_category] asks. *)
Lemma Format_sets_category (ty : ErrorType) :
  sets_category ty (ErrorThrower.Format ty).
Proof.
  intros format args text this H.
  exists (mkErrorThrower (context_ this) ty text).
  split; [apply Format_returns; exact H|]. split; [reflexivity|].
  unfold ErrorThrower.error_msg. cbn [error_msg_].
  rewrite (c_str_fixed _ (vprintf_nul_free _ _ _ H)). apply contains_refl.
Qed.

Lemma CompileFailed_with_CompileError (debug : bool) (e : WasmError)
    (this : ErrorThrower) :
  ErrorThrower.CompileFailed_with ErrorThrower.CompileError debug e this
  = ErrorThrower.CompileFailed debug e this.
Proof. reflexivity. Qed.

Lemma DCHECK_passes (debug cond : bool) :
  debug = false \/ cond = true -> DCHECK debug cond = Returns tt.
Proof. intros [H|H]; subst; [reflexivity | apply DCHECK_holds]. Qed.

(** C5, amended: where the DCHECK of [CompileFailed] passes (in a release
    build, or for an error with a non-empty message), and for every
    [CompileError] setter that does what the spec says of a setter, the
    call returns; [error_msg()] then contains the C-string view of the
    message [m] ([m] up to its first NUL, [m] itself when it holds none)
    followed by [" @+"] and the decimal rendering of the offset [n], and
    the category is [kCompileError], so [wasm_error()] is true. *)
Theorem CompileFailed_message :
  forall CompileError : setter,
    sets_category kCompileError CompileError ->
    forall (debug : bool) (e : WasmError) (this : ErrorThrower),
      debug = false \/ WasmError.has_error e = true ->
      exists this',
        ErrorThrower.CompileFailed_with CompileError debug e this = Returns this' /\
        contains (ErrorThrower.error_msg this')
          (c_str (WasmError.message e) ++ " @+" ++ decimal (WasmError.offset e)) /\
        (nul_free (WasmError.message e) = true ->
         contains (ErrorThrower.error_msg this')
           (WasmError.message e ++ " @+" ++ decimal (WasmError.offset e))) /\
        error_type_ this' = kCompileError /\
        ErrorThrower.wasm_error this' = true.
Proof.
  intros CompileError Hset debug e this Hd.
  destruct (Hset "%s @+%u"
              [ArgCStr (c_str (WasmError.message e)); ArgUInt (WasmError.offset e)]
              (c_str (WasmError.message e) ++ " @+" ++ decimal (WasmError.offset e))
              this)
    as [this' [Hret [Hty Hmsg]]].
  { now rewrite vprintf_message_at_offset, c_str_idem. }
  exists this'. split.
  - unfold ErrorThrower.CompileFailed_with. now rewrite (DCHECK_passes _ _ Hd).
  - split; [exact Hmsg|]. split.
    + intros Hm. now rewrite (c_str_fixed _ Hm) in Hmsg.
    + split; [exact Hty|]. unfold ErrorThrower.wasm_error. now rewrite Hty.
Qed.

Lemma CompileFailed_message_witness :
  sets_category kCompileError ErrorThrower.CompileError /\
  (true = false \/ WasmError.has_error (mkWasmError 10 "bad byte") = true) /\
  exists this',
    ErrorThrower.CompileFailed true (mkWasmError 10 "bad byte")
      (ErrorThrower.make "WebAssembly.compile()") = Returns this' /\
    contains (ErrorThrower.error_msg this') "bad byte @+10" /\
    error_type_ this' = kCompileError /\
    ErrorThrower.wasm_error this' = true.
Proof.
  split; [exact (Format_sets_category kCompileError)|].
  split; [right; reflexivity|].
  destruct (CompileFailed_message ErrorThrower.CompileError
              (Format_sets_category kCompileError) true (mkWasmError 10 "bad byte")
              (ErrorThrower.make "WebAssembly.compile()") (or_intror eq_refl))
    as [this' [Hret [_ [Hplain [Hty Hwasm]]]]].
  exists this'. split; [exact Hret|]. split; [exact (Hplain eq_refl)|].
  split; [exact Hty | exact Hwasm].
Defined.

(** In a release build the call goes through for an error without message
    too, and the same formula holds. *)
Example CompileFailed_release_empty_message :
  ErrorThrower.CompileFailed false (mkWasmError 7 "")
    (ErrorThrower.make "WebAssembly.compile()")
  = Returns (mkErrorThrower "WebAssembly.compile()" kCompileError " @+7").
Proof. reflexivity. Qed.

(** ** Sequences of calls *)

Lemma bind_Returns {A : Type} (m : outcome A) : (a <- m ;; Returns a) = m.
Proof. destruct m; reflexivity. Qed.

Lemma run_app (debug : bool) (body1 body2 : list request) (this : ErrorThrower) :
  run debug (body1 ++ body2) this
  = (mid <- run debug body1 this ;; run debug body2 mid).
Proof.
  revert this. induction body1 as [|req body1 IH]; intros this; simpl; [reflexivity|].
  destruct (perform debug req this); simpl; auto.
Qed.

Ltac unfold_setters :=
  unfold ErrorThrower.CompileFailed, ErrorThrower.TypeError,
    ErrorThrower.RangeError, ErrorThrower.CompileError, ErrorThrower.LinkError,
    ErrorThrower.RuntimeError, ErrorThrower.Format, ErrorThrower.Reset.

(** A call reads nothing of the thrower but its context. *)
Lemma perform_same_context (debug : bool) (req : request) (a b : ErrorThrower) :
  context_ a = context_ b -> perform debug req a = perform debug req b.
Proof.
  intros H. destruct req; simpl; unfold_setters; now rewrite H.
Qed.

Lemma perform_context (debug : bool) (req : request) (this this' : ErrorThrower) :
  perform debug req this = Returns this' -> context_ this' = context_ this.
Proof.
  destruct req as [f a|f a|f a|f a|f a|e|]; simpl; unfold_setters;
    try (destruct (vprintf f a); intros H; inversion H; reflexivity).
  - destruct (DCHECK debug (WasmError.has_error e)); simpl; try discriminate.
    intros H; inversion H; reflexivity.
  - intros H; inversion H; reflexivity.
Qed.

Lemma run_context (debug : bool) (body : list request) (this this' : ErrorThrower) :
  run debug body this = Returns this' -> context_ this' = context_ this.
Proof.
  revert this. induction body as [|req body IH]; intros this; simpl.
  - intros H; inversion H; reflexivity.
  - destruct (perform debug req this) as [mid| |] eqn:E; simpl; try discriminate.
    intros H. rewrite (IH _ H). exact (perform_context _ _ _ _ E).
Qed.

(** ** ErrorThrower: overwriting *)

(** C1, as stated, fails: its two halves contradict each other on the
    header, whatever the bodies of the setters are.  [CompileFailed] is a
    call of the [CompileError] setter; if that setter overwrites a
    pending [kTypeError] with its own category, as the claim says every
    setter does, then so does [CompileFailed].  The setters as the spec
    words them do overwrite. *)
Lemma CompileFailed_overwrites_as_CompileError :
  WasmError.has_error (mkWasmError 10 "bad byte") = true /\
  (forall (TypeError CompileError : setter) (this1 this2 : ErrorThrower),
     TypeError "x" [] (ErrorThrower.make "WebAssembly.compile()") = Returns this1 ->
     error_type_ this1 = kTypeError ->
     CompileError "%s @+%u" [ArgCStr "bad byte"; ArgUInt 10] this1 = Returns this2 ->
     error_type_ this2 = kCompileError ->
     ErrorThrower.CompileFailed_with CompileError true (mkWasmError 10 "bad byte") this1
     = Returns this2 /\
     error_type_ this2 <> error_type_ this1) /\
  (exists this1 this2,
     ErrorThrower.TypeError "x" [] (ErrorThrower.make "WebAssembly.compile()")
     = Returns this1 /\
     error_type_ this1 = kTypeError /\
     ErrorThrower.CompileError "%s @+%u" [ArgCStr "bad byte"; ArgUInt 10] this1
     = Returns this2 /\
     error_type_ this2 = kCompileError).
Proof.
  split; [reflexivity|]. split.
  - intros TypeError CompileError this1 this2 _ H1 Hcall H2.
    split; [exact Hcall|]. rewrite H1, H2. discriminate.
  - do 2 eexists. repeat split.
Qed.

(** C1, amended: after any calls, and whatever error they left pending,
    one more call leaves the thrower as if it were the only call: the
    earlier ones leave no trace (last call wins).  After a category setter
    the category is the setter's own and [error_msg()] contains its text.
    [CompileFailed] is no exception: where its DCHECK passes (in a release
    build, or for an error with a non-empty message) it is the
    [CompileError] setter called with the composed text, and overwrites
    the pending category with [kCompileError]. *)
Theorem last_call_wins :
  forall (debug : bool) (body : list request) (this before : ErrorThrower),
    run debug body this = Returns before ->
    (forall req, run debug (body ++ [req]) this = perform debug req this) /\
    (forall ty set format args text,
       In (ty, set) category_setters ->
       vprintf format args = Some text ->
       exists after,
         run debug (body ++ [set format args]) this = Returns after /\
         error_type_ after = ty /\
         contains (ErrorThrower.error_msg after) text) /\
    (forall e,
       debug = false \/ WasmError.has_error e = true ->
       run debug (body ++ [DoCompileFailed e]) this
       = run debug
           (body ++ [DoCompileError "%s @+%u"
                       [ArgCStr (c_str (WasmError.message e));
                        ArgUInt (WasmError.offset e)]]) this /\
       exists after,
         run debug (body ++ [DoCompileFailed e]) this = Returns after /\
         error_type_ after = kCompileError).
Proof.
  intros debug body this before Hrun.
  assert (Hlast : forall req,
             run debug (body ++ [req]) this = perform debug req this).
  { intros req. rewrite run_app, Hrun. simpl. rewrite bind_Returns.
    apply perform_same_context. exact (run_context _ _ _ _ Hrun). }
  assert (Hfailed : forall e,
             debug = false \/ WasmError.has_error e = true ->
             perform debug (DoCompileFailed e) this
             = perform debug
                 (DoCompileError "%s @+%u"
                    [ArgCStr (c_str (WasmError.message e));
                     ArgUInt (WasmError.offset e)]) this).
  { intros e Hd. simpl. unfold ErrorThrower.CompileFailed.
    now rewrite (DCHECK_passes _ _ Hd). }
  split; [exact Hlast|]. split.
  - intros ty set format args text Hin Hfmt. rewrite Hlast.
    simpl in Hin.
    repeat (destruct Hin as [Hin|Hin];
            [inversion Hin; subst; exact (Format_sets_category _ _ _ _ this Hfmt)|]).
    contradiction.
  - intros e Hd. rewrite !Hlast. split; [exact (Hfailed e Hd)|].
    rewrite (Hfailed e Hd).
    destruct (Format_sets_category kCompileError "%s @+%u"
                [ArgCStr (c_str (WasmError.message e)); ArgUInt (WasmError.offset e)]
                _ this (vprintf_message_at_offset _ _))
      as [after [Hret [Hty _]]].
    exists after. split; [exact Hret | exact Hty].
Qed.

Lemma last_call_wins_witness :
  run true [DoTypeError "x" []] (ErrorThrower.make "WebAssembly.compile()")
  = Returns (mkErrorThrower "WebAssembly.compile()" kTypeError "x") /\
  (exists after,
     run true ([DoTypeError "x" []] ++ [DoRangeError "y" []])
       (ErrorThrower.make "WebAssembly.compile()") = Returns after /\
     error_type_ after = kRangeError /\
     contains (ErrorThrower.error_msg after) "y") /\
  (true = false \/ WasmError.has_error (mkWasmError 10 "bad byte") = true) /\
  (exists after,
     run true ([DoTypeError "x" []] ++ [DoCompileFailed (mkWasmError 10 "bad byte")])
       (ErrorThrower.make "WebAssembly.compile()") = Returns after /\
     error_type_ after = kCompileError).
Proof.
  split; [reflexivity|].
  destruct (last_call_wins true [DoTypeError "x" []]
              (ErrorThrower.make "WebAssembly.compile()")
              (mkErrorThrower "WebAssembly.compile()" kTypeError "x") eq_refl)
    as [_ [Hset Hfailed]].
  split; [|split; [right; reflexivity|]].
  - apply (Hset kRangeError DoRangeError "y" [] "y"); [simpl; auto | reflexivity].
  - apply (Hfailed (mkWasmError 10 "bad byte")). right; reflexivity.
Defined.

(** * Further properties of the header *)

(** ** WasmError: construction *)

Lemma to_uint32_small (n : N) : (n <= uint32_max)%N -> to_uint32 n = n.
Proof.
  intros H. unfold to_uint32. apply N.mod_small.
  unfold uint32_max in *. lia.
Qed.

Lemma string_empty_false (s : string) : s <> "" -> string_empty s = false.
Proof. destruct s; simpl; congruence. Qed.

(** [WasmError(offset, message)] with a non-empty message and an offset
    that fits [uint32_t] returns, in every build, an error that reads back
    the same offset and message, for which [has_error()] and [operator
    bool] are true and [empty()] is false. *)
Theorem WasmError_make_reads_back :
  forall (debug : bool) (offset : N) (message : string),
    message <> "" ->
    (offset <= uint32_max)%N ->
    exists e,
      WasmError.make debug offset message = Returns e /\
      WasmError.offset e = offset /\
      WasmError.message e = message /\
      WasmError.has_error e = true /\
      WasmError.to_bool e = true /\
      WasmError.empty e = false.
Proof.
  intros debug offset message Hm Ho.
  exists (mkWasmError offset message).
  unfold WasmError.make. cbn [message_].
  rewrite (string_empty_false _ Hm), (to_uint32_small _ Ho). cbn [negb].
  rewrite DCHECK_holds. simpl bind.
  unfold WasmError.has_error, WasmError.to_bool, WasmError.has_error, WasmError.empty.
  cbn [message_]. rewrite (string_empty_false _ Hm).
  repeat split.
Qed.

Lemma WasmError_make_reads_back_witness :
  "bad byte" <> "" /\ (10 <= uint32_max)%N /\
  exists e,
    WasmError.make true 10 "bad byte" = Returns e /\
    WasmError.offset e = 10%N /\
    WasmError.message e = "bad byte" /\
    WasmError.has_error e = true /\
    WasmError.to_bool e = true /\
    WasmError.empty e = false.
Proof.
  split; [discriminate|]. split; [vm_compute; discriminate|].
  apply (WasmError_make_reads_back true 10 "bad byte");
    [discriminate | vm_compute; discriminate].
Defined.

(** [WasmError(offset, "")]: a debug build stops at the DCHECK; a release
    build returns an object that keeps the offset but is [empty()], so it
    cannot be told from "no error" ("otherwise {empty()} would be true"). *)
Theorem WasmError_make_empty_message :
  forall offset : N,
    (offset <= uint32_max)%N ->
    WasmError.make true offset "" = DcheckFailed /\
    exists e,
      WasmError.make false offset "" = Returns e /\
      WasmError.offset e = offset /\
      WasmError.empty e = true /\
      WasmError.has_error e = false /\
      WasmError.to_bool e = false.
Proof.
  intros offset Ho. split; [reflexivity|].
  exists (mkWasmError offset "").
  unfold WasmError.make. rewrite (to_uint32_small _ Ho).
  repeat split.
Qed.

Lemma WasmError_make_empty_message_witness :
  (7 <= uint32_max)%N /\
  WasmError.make true 7 "" = DcheckFailed /\
  exists e,
    WasmError.make false 7 "" = Returns e /\
    WasmError.offset e = 7%N /\
    WasmError.empty e = true /\
    WasmError.has_error e = false /\
    WasmError.to_bool e = false.
Proof.
  split; [vm_compute; discriminate|].
  apply (WasmError_make_empty_message 7). vm_compute; discriminate.
Defined.

(** In a debug build neither constructor with arguments returns an empty
    error: whatever the plain or the formatting constructor returns has
    [has_error()], and its offset fits [uint32_t]. *)
Theorem WasmError_debug_constructors_never_empty :
  forall (offset : N) (message format : string) (args : list printf_arg)
         (e : WasmError),
    WasmError.make true offset message = Returns e \/
    WasmError.make_fmt true offset format args = Returns e ->
    WasmError.has_error e = true /\ (WasmError.offset e <= uint32_max)%N.
Proof.
  intros offset message format args e H.
  assert (Hrange : (to_uint32 offset <= uint32_max)%N).
  { unfold to_uint32.
    pose proof (N.mod_upper_bound offset (uint32_max + 1)) as Hb.
    unfold uint32_max in *. lia. }
  assert (Hmake : forall m, WasmError.make true offset m = Returns e ->
                    WasmError.has_error e = true /\ (WasmError.offset e <= uint32_max)%N).
  { intros m Hm. unfold WasmError.make, DCHECK in Hm. cbn [message_] in Hm.
    destruct m as [|c m]; simpl in Hm; [discriminate|].
    inversion Hm; subst e. split; [reflexivity | exact Hrange]. }
  destruct H as [H|H]; [exact (Hmake _ H)|].
  unfold WasmError.make_fmt in H.
  destruct (WasmError.FormatError format args) as [msg| |]; simpl in H;
    try discriminate.
  exact (Hmake msg H).
Qed.

Lemma WasmError_debug_constructors_never_empty_witness :
  (WasmError.make true 10 "bad byte" = Returns (mkWasmError 10 "bad byte") \/
   WasmError.make_fmt true 10 "bad byte" [] = Returns (mkWasmError 10 "bad byte")) /\
  WasmError.has_error (mkWasmError 10 "bad byte") = true /\
  (WasmError.offset (mkWasmError 10 "bad byte") <= uint32_max)%N.
Proof.
  split; [left; reflexivity|].
  apply (WasmError_debug_constructors_never_empty 10 "bad byte" "bad byte" []).
  left. reflexivity.
Defined.

(** ** Result<T>: states *)

(** Every container is in exactly one of the two states: [failed()] is the
    negation of [ok()]; [ok()] holds exactly when the held error has an
    empty message, and [failed()] is the held error's [operator bool]. *)
Theorem Result_ok_xor_failed :
  forall (T : Type) (r : Result.t T),
    Result.failed r = negb (Result.ok r) /\
    (Result.ok r = true <-> WasmError.message (Result.error r) = "") /\
    Result.failed r = WasmError.to_bool (Result.error r).
Proof.
  intros T r. split; [reflexivity|]. split; [|reflexivity].
  unfold Result.ok, Result.error, WasmError.empty, WasmError.message.
  destruct (message_ (Result.error_ r)); simpl; split; congruence.
Qed.

(** A container constructed from an error that is empty, [WasmError()]
    included, is not failed: it is ok, and [value()] returns [T{}] in
    every build.  [Result(WasmError())] is [Result()]. *)
Theorem Result_of_empty_error_is_ok :
  forall (T : Type) (T_default : T) (e : WasmError),
    WasmError.empty e = true ->
    Result.ok (Result.of_error T_default e) = true /\
    Result.failed (Result.of_error T_default e) = false /\
    (forall debug,
       Result.value debug (Result.of_error T_default e) = Returns T_default) /\
    Result.of_error T_default WasmError.default = Result.default T_default.
Proof.
  intros T T_default e He.
  assert (Hok : Result.ok (Result.of_error T_default e) = true) by exact He.
  split; [exact Hok|]. split; [now rewrite failed_not_ok, Hok|].
  split; [|reflexivity].
  intros debug. unfold Result.value. rewrite Hok, DCHECK_holds. reflexivity.
Qed.

Lemma Result_of_empty_error_is_ok_witness :
  WasmError.empty WasmError.default = true /\
  Result.ok (Result.of_error 0%Z WasmError.default) = true /\
  Result.failed (Result.of_error 0%Z WasmError.default) = false /\
  (forall debug,
     Result.value debug (Result.of_error 0%Z WasmError.default) = Returns 0%Z) /\
  Result.of_error 0%Z WasmError.default = Result.default 0%Z.
Proof.
  split; [reflexivity|].
  apply (Result_of_empty_error_is_ok Z 0%Z WasmError.default). reflexivity.
Defined.

(** ** Result<T>: conversion *)

Lemma convert_ok {T U : Type} (U_default : U) (conv : T -> U) (r : Result.t T) :
  Result.ok (Result.convert U_default conv r) = Result.ok r.
Proof.
  unfold Result.convert. destruct (Result.ok r) eqn:E; [reflexivity | exact E].
Qed.

(** Conversions compose: converting to [Result<U>] and then to [Result<V>]
    gives the container that the direct conversion with the composed
    construction gives. *)
Theorem Result_convert_compose :
  forall (T U V : Type) (U_default : U) (V_default : V)
         (f : T -> U) (g : U -> V) (r : Result.t T),
    Result.convert V_default g (Result.convert U_default f r)
    = Result.convert V_default (fun x => g (f x)) r.
Proof.
  intros T U V U_default V_default f g r.
  unfold Result.convert at 1. rewrite convert_ok.
  unfold Result.convert. destruct (Result.ok r); reflexivity.
Qed.

(** Converting to the same payload type gives back every container that a
    constructor builds: one built from a value, one built from an error
    that has an error, and the default one. *)
Theorem Result_convert_identity :
  forall (T : Type) (T_default : T),
    (forall v : T,
       Result.convert T_default id (Result.of_value id v) = Result.of_value id v) /\
    (forall e : WasmError,
       WasmError.has_error e = true ->
       Result.convert T_default id (Result.of_error T_default e)
       = Result.of_error T_default e) /\
    Result.convert T_default id (Result.default T_default) = Result.default T_default.
Proof.
  intros T T_default. split; [reflexivity|]. split; [|reflexivity].
  intros e He. unfold Result.convert.
  assert (Hok : Result.ok (Result.of_error T_default e) = false).
  { change (WasmError.empty e = false).
    rewrite has_error_not_empty in He. now apply negb_true_iff in He. }
  now rewrite Hok.
Qed.

Lemma Result_convert_identity_witness :
  WasmError.has_error (mkWasmError 10 "bad byte") = true /\
  Result.convert 0%Z id (Result.of_error 0%Z (mkWasmError 10 "bad byte"))
  = Result.of_error 0%Z (mkWasmError 10 "bad byte").
Proof.
  split; [reflexivity|].
  apply (proj1 (proj2 (Result_convert_identity Z 0%Z))). reflexivity.
Defined.

(** Converting a failed container never applies the conversion to the
    stale payload: the result holds [U{}] and is the same for every
    conversion. *)
Theorem Result_convert_failed_ignores_payload :
  forall (T U : Type) (U_default : U) (f g : T -> U) (r : Result.t T),
    Result.failed r = true ->
    Result.convert U_default f r = Result.convert U_default g r /\
    Result.value_ (Result.convert U_default f r) = U_default /\
    Result.value false (Result.convert U_default f r) = Returns U_default.
Proof.
  intros T U U_default f g r H.
  assert (Hok : Result.ok r = false)
    by (rewrite failed_not_ok in H; now apply negb_true_iff in H).
  unfold Result.convert. rewrite Hok. repeat split.
Qed.

Lemma Result_convert_failed_ignores_payload_witness :
  Result.failed (Result.of_error 0%nat (mkWasmError 10 "bad byte")) = true /\
  Result.convert 0%Z Z.of_nat (Result.of_error 0%nat (mkWasmError 10 "bad byte"))
  = Result.convert 0%Z (fun _ => 1%Z) (Result.of_error 0%nat (mkWasmError 10 "bad byte")) /\
  Result.value_ (Result.convert 0%Z Z.of_nat
                   (Result.of_error 0%nat (mkWasmError 10 "bad byte"))) = 0%Z /\
  Result.value false (Result.convert 0%Z Z.of_nat
                        (Result.of_error 0%nat (mkWasmError 10 "bad byte"))) = Returns 0%Z.
Proof.
  split; [reflexivity|].
  apply (Result_convert_failed_ignores_payload nat Z 0%Z Z.of_nat (fun _ => 1%Z)
           (Result.of_error 0%nat (mkWasmError 10 "bad byte"))).
  reflexivity.
Defined.

(** [value()] commutes with conversion when its DCHECK is in force or the
    container is ok: reading the converted container is reading the
    original one and converting what was read, the DCHECK failure
    included. *)
Theorem Result_value_of_convert :
  forall (T U : Type) (U_default : U) (conv : T -> U) (debug : bool)
         (r : Result.t T),
    debug = true \/ Result.ok r = true ->
    Result.value debug (Result.convert U_default conv r)
    = (v <- Result.value debug r ;; Returns (conv v)).
Proof.
  intros T U U_default conv debug r H.
  unfold Result.value. rewrite convert_ok.
  destruct (Result.ok r) eqn:E.
  - rewrite DCHECK_holds. simpl bind. unfold Result.convert. now rewrite E.
  - destruct H as [H|H]; [subst debug; reflexivity | discriminate].
Qed.

Lemma Result_value_of_convert_witness :
  (true = true \/ Result.ok (Result.of_error 0%nat (mkWasmError 10 "bad byte")) = true) /\
  Result.value true
    (Result.convert 0%Z Z.of_nat (Result.of_error 0%nat (mkWasmError 10 "bad byte")))
  = (v <- Result.value true (Result.of_error 0%nat (mkWasmError 10 "bad byte")) ;;
     Returns (Z.of_nat v)).
Proof.
  split; [left; reflexivity|].
  apply (Result_value_of_convert nat Z 0%Z Z.of_nat true
           (Result.of_error 0%nat (mkWasmError 10 "bad byte"))).
  left; reflexivity.
Defined.

(** ** ErrorThrower: tiers *)

(** Every thrower is in exactly one of three tiers: no error ([kNone]);
    a general error, for which [error()] holds and [wasm_error()] does not
    ([kTypeError], [kRangeError]); or a wasm error, for which both hold
    ([kCompileError], [kLinkError], [kRuntimeError]). *)
Theorem ErrorThrower_tiers :
  forall this : ErrorThrower,
    (ErrorThrower.error this = false /\ ErrorThrower.wasm_error this = false /\
     error_type_ this = kNone) \/
    (ErrorThrower.error this = true /\ ErrorThrower.wasm_error this = false /\
     In (error_type_ this) [kTypeError; kRangeError]) \/
    (ErrorThrower.error this = true /\ ErrorThrower.wasm_error this = true /\
     In (error_type_ this) [kCompileError; kLinkError; kRuntimeError]).
Proof.
  intros [context ty msg]. unfold ErrorThrower.error, ErrorThrower.wasm_error.
  destruct ty; simpl; auto 10.
Qed.

(** The wasm tier is closed upwards in the order of the enumerators: a
    category at least as large as one that counts as a wasm error counts
    as one too. *)
Theorem wasm_error_upward_closed :
  forall this other : ErrorThrower,
    (ErrorType_value (error_type_ this) <= ErrorType_value (error_type_ other))%Z ->
    ErrorThrower.wasm_error this = true ->
    ErrorThrower.wasm_error other = true.
Proof.
  intros this other Hle H. unfold ErrorThrower.wasm_error in *.
  apply Z.leb_le in H. apply Z.leb_le. lia.
Qed.

Lemma wasm_error_upward_closed_witness :
  (ErrorType_value (error_type_ (mkErrorThrower "f" kCompileError "x"))
   <= ErrorType_value (error_type_ (mkErrorThrower "g" kRuntimeError "y")))%Z /\
  ErrorThrower.wasm_error (mkErrorThrower "f" kCompileError "x") = true /\
  ErrorThrower.wasm_error (mkErrorThrower "g" kRuntimeError "y") = true.
Proof.
  split; [vm_compute; discriminate|]. split; [reflexivity|].
  apply (wasm_error_upward_closed (mkErrorThrower "f" kCompileError "x")
           (mkErrorThrower "g" kRuntimeError "y")); [vm_compute; discriminate | reflexivity].
Defined.

(** A thrower as its constructor leaves it, scheduled or not, and whatever
    its context: no error, no wasm error, an empty message. *)
Lemma ErrorThrower_make_no_error :
  forall context : string,
    ScheduledErrorThrower.make context = ErrorThrower.make context /\
    ErrorThrower.error (ErrorThrower.make context) = false /\
    ErrorThrower.wasm_error (ErrorThrower.make context) = false /\
    ErrorThrower.error_msg (ErrorThrower.make context) = "".
Proof. intros context. repeat split. Qed.

(** ** ErrorThrower: error_msg *)

Lemma c_str_prefix (s : string) : exists rest, s = c_str s ++ rest.
Proof.
  induction s as [|c s [rest IH]]; simpl; [now exists ""|].
  destruct (Ascii.eqb c NUL).
  - now exists (String c s).
  - exists rest. simpl. now rewrite <- IH.
Qed.

Lemma c_str_same_iff (s : string) : c_str s = s <-> nul_free s = true.
Proof.
  split; [|apply c_str_fixed].
  intros H. rewrite <- H. apply c_str_nul_free.
Qed.

(** [error_msg()] hands out the message as a C string: what the caller
    reads holds no NUL, is a prefix of the stored message, and is the
    whole stored message exactly when that holds no NUL. *)
Theorem error_msg_is_c_string :
  forall this : ErrorThrower,
    nul_free (ErrorThrower.error_msg this) = true /\
    (exists rest, error_msg_ this = ErrorThrower.error_msg this ++ rest) /\
    (ErrorThrower.error_msg this = error_msg_ this <->
     nul_free (error_msg_ this) = true).
Proof.
  intros this. unfold ErrorThrower.error_msg.
  split; [apply c_str_nul_free|]. split; [apply c_str_prefix | apply c_str_same_iff].
Qed.

(** ** ErrorThrower: CompileFailed on the error of a Result *)

(** Reporting the error of a container: for a failed container the DCHECK
    of [CompileFailed] passes in every build, and the call is the
    [CompileError] call with the format ["%s @+%u"], the message as a C
    string and the offset; for an ok container a debug build stops at the
    DCHECK and nothing is set. *)
Theorem CompileFailed_of_Result :
  forall (T : Type) (r : Result.t T) (this : ErrorThrower),
    (Result.failed r = true ->
     forall debug,
       ErrorThrower.CompileFailed debug (Result.error r) this
       = ErrorThrower.CompileError "%s @+%u"
           [ArgCStr (c_str (WasmError.message (Result.error r)));
            ArgUInt (WasmError.offset (Result.error r))] this) /\
    (Result.ok r = true ->
     ErrorThrower.CompileFailed true (Result.error r) this = DcheckFailed).
Proof.
  intros T r this. unfold ErrorThrower.CompileFailed. split; intros H.
  - intros debug. unfold Result.failed in H. unfold Result.error.
    now rewrite H, DCHECK_holds.
  - unfold Result.ok in H. unfold Result.error.
    rewrite has_error_not_empty, H. reflexivity.
Qed.

Lemma CompileFailed_of_Result_witness :
  (Result.failed (Result.of_error 0%Z (mkWasmError 10 "bad byte")) = true /\
   ErrorThrower.CompileFailed true
     (Result.error (Result.of_error 0%Z (mkWasmError 10 "bad byte")))
     (ErrorThrower.make "WebAssembly.compile()")
   = ErrorThrower.CompileError "%s @+%u" [ArgCStr "bad byte"; ArgUInt 10]
       (ErrorThrower.make "WebAssembly.compile()")) /\
  (Result.ok (Result.of_value id 5%Z) = true /\
   ErrorThrower.CompileFailed true (Result.error (Result.of_value id 5%Z))
     (ErrorThrower.make "WebAssembly.compile()") = DcheckFailed).
Proof.
  split.
  - split; [reflexivity|].
    apply (proj1 (CompileFailed_of_Result Z
                    (Result.of_error 0%Z (mkWasmError 10 "bad byte"))
                    (ErrorThrower.make "WebAssembly.compile()"))). reflexivity.
  - split; [reflexivity|].
    apply (proj2 (CompileFailed_of_Result Z (Result.of_value id 5%Z)
                    (ErrorThrower.make "WebAssembly.compile()"))). reflexivity.
Defined.
